(** * The Anthropic manifold pipeline

  A shallow embedding of [pipelines/examples/anthropic_manifold_pipeline.py]:
  the [Pipeline] object, its model list, the credential update hook and the
  two call-translation paths of [pipe] (single-shot and streaming).

  Python objects are modelled as the code uses them: the request [body] is a
  dictionary from strings to Python values, exceptions carry their class
  hierarchy, the vendor SDK is an oracle that answers each request, and the
  value returned by the generator function [stream_response] is a suspended
  frame that runs only when [next] is called on it. *)

From Stdlib Require Import Floats.PrimFloat ZArith.
From stdpp Require Import gmap strings list.

Set Warnings "-register-all,-inexact-float".

Local Open Scope string_scope.
Local Open Scope list_scope.

(** ** Python values, dictionaries and exceptions *)

Module Py.

Inductive value : Type :=
| None_
| Bool (b : bool)
| Int (z : Z)
| Float (f : float)
| Str (s : string)
| List (l : list value)
| Dict (items : list (string * value)).

(** [bool(v)]: what an [if] statement tests. *)
Definition truthy (v : value) : bool :=
  match v with
  | None_ => false
  | Bool b => b
  | Int z => negb (z =? 0)%Z
  | Float f => negb (PrimFloat.eqb f 0%float)
  | Str s => negb (String.eqb s "")
  | List l => match l with [] => false | _ :: _ => true end
  | Dict items => match items with [] => false | _ :: _ => true end
  end.

Abbreviation dict := (gmap string value).

(** [d.get(k, dflt)] *)
Definition get (d : dict) (k : string) (dflt : value) : value :=
  match d !! k with
  | Some v => v
  | None => dflt
  end.

(** An exception object: the names of its class and of the classes it
    inherits from (most derived first), and [str(e)]. *)
Record exn : Type := Exn { mro : list string; str : string }.

Definition isinstance (e : exn) (cls : string) : bool :=
  bool_decide (cls ∈ mro e).

Definition IndexError : exn :=
  Exn ["IndexError"; "LookupError"; "Exception"; "BaseException"]
      "list index out of range".

Definition AttributeError (what : string) : exn :=
  Exn ["AttributeError"; "Exception"; "BaseException"] what.

(** The result of running a piece of code: it returns or it raises. *)
Inductive outcome (A : Type) : Type :=
| Return (a : A)
| Raise (e : exn).
Arguments Return {A} a.
Arguments Raise {A} e.

End Py.

Import Py (dict, Return, Raise).

(** ** The vendor SDK, as far as the pipeline touches it *)

Module TextBlock.
Record t : Type := Make { text : string }.
End TextBlock.

Module TextDelta.
Record t : Type := Make { text : string }.
End TextDelta.

Module Message.
Record t : Type := Make { content : list TextBlock.t }.
End Message.

(** The events of a message stream, a closed union discriminated by [type]. *)
Module Event.

Inductive t : Type :=
| MessageStart
| ContentBlockStart (index : nat) (content_block : TextBlock.t)
| ContentBlockDelta (index : nat) (delta : TextDelta.t)
| ContentBlockStop (index : nat)
| MessageDelta
| MessageStop.

Definition type (chunk : t) : string :=
  match chunk with
  | MessageStart => "message_start"
  | ContentBlockStart _ _ => "content_block_start"
  | ContentBlockDelta _ _ => "content_block_delta"
  | ContentBlockStop _ => "content_block_stop"
  | MessageDelta => "message_delta"
  | MessageStop => "message_stop"
  end.

(** Attribute access; an event without the attribute raises. *)
Definition content_block (chunk : t) : Py.outcome TextBlock.t :=
  match chunk with
  | ContentBlockStart _ b => Return b
  | _ => Raise (Py.AttributeError "content_block")
  end.

Definition delta (chunk : t) : Py.outcome TextDelta.t :=
  match chunk with
  | ContentBlockDelta _ d => Return d
  | _ => Raise (Py.AttributeError "delta")
  end.

End Event.

(** An opened stream: the events it will deliver, and the exception that
    interrupts it after them, if any. *)
Module Stream.
Record t : Type := Make { events : list Event.t; failure : option Py.exn }.
End Stream.

(** The client handle built by [Anthropic(api_key=...)]. *)
Module Anthropic.
Record t : Type := Make { api_key : string }.
End Anthropic.

(** The keyword arguments of [client.messages.create]. [stream] is [None]
    when the keyword is not passed. *)
Module Create.
Record kwargs : Type := Kwargs {
  model : string;
  messages : list dict;
  max_tokens : Py.value;
  temperature : Py.value;
  top_k : Py.value;
  top_p : Py.value;
  stop_sequences : Py.value;
  stream : option bool
}.
End Create.

(** One outbound call as the transport sees it: the credential of the client
    that made it, and the arguments. *)
Record Request : Type := MkRequest { auth : string; args : Create.kwargs }.

(** The behaviour of the vendor: given the calls made so far and the current
    one, the answer of the single-shot overload and of the streaming one. *)
Record Vendor : Type := MkVendor {
  answer : list Request -> Request -> Py.outcome Message.t;
  open_stream : list Request -> Request -> Py.outcome Stream.t
}.

(** ** The pipeline object and the world it runs in *)

Module Valves.
Record t : Type := Make { ANTHROPIC_API_KEY : string }.
End Valves.

Module Self.
Record t : Type := Make {
  type : string;
  id : string;
  name : string;
  valves : Valves.t;
  client : Anthropic.t
}.
End Self.

(** The mutable state: the fields of [self] and the calls that have reached
    the vendor, oldest first. *)
Record World : Type := MkWorld { self : Self.t; wire : list Request }.

(** Code that reads and writes the world and may raise. *)
Definition M (A : Type) : Type := World -> Py.outcome A * World.

Definition ret {A} (a : A) : M A := fun w => (Return a, w).

Definition bind {A B} (m : M A) (k : A -> M B) : M B :=
  fun w =>
    match m w with
    | (Return a, w') => k a w'
    | (Raise e, w') => (Raise e, w')
    end.

(** [try: m  except classes as e: handler e] *)
Definition try_except {A} (m : M A) (classes : list string)
    (handler : Py.exn -> M A) : M A :=
  fun w =>
    match m w with
    | (Return a, w') => (Return a, w')
    | (Raise e, w') =>
        if existsb (Py.isinstance e) classes then handler e w'
        else (Raise e, w')
    end.

Definition lift {A} (o : Py.outcome A) : M A := fun w => (o, w).

Definition get_self : M Self.t := fun w => (Return (self w), w).

(** [self.client = c] *)
Definition set_client (c : Anthropic.t) : M unit :=
  fun w =>
    let s := self w in
    (Return tt,
     MkWorld
       (Self.Make (Self.type s) (Self.id s) (Self.name s) (Self.valves s) c)
       (wire w)).

Declare Scope py_scope.
Delimit Scope py_scope with py.
Notation "'let*' x := m 'in' k" := (bind m (fun x => k))
  (at level 10, x name, m at level 100, k at level 200) : py_scope.
Local Open Scope py_scope.

(** The exception classes [pipe] names, with the SDK's hierarchy. *)
Module anthropic.

Definition APIError_bases : list string :=
  ["APIError"; "AnthropicError"; "Exception"; "BaseException"].

Definition RateLimitError (msg : string) : Py.exn :=
  Py.Exn ("RateLimitError" :: "APIStatusError" :: APIError_bases) msg.

Definition APIStatusError (msg : string) : Py.exn :=
  Py.Exn ("APIStatusError" :: APIError_bases) msg.

Definition APIConnectionError (msg : string) : Py.exn :=
  Py.Exn ("APIConnectionError" :: APIError_bases) msg.

End anthropic.

(** [l[i]] on a list *)
Definition getitem {A} (l : list A) (i : nat) : Py.outcome A :=
  match l !! i with
  | Some x => Return x
  | None => Raise Py.IndexError
  end.

(** A generator object made by calling [stream_response]: its frame before
    any code has run, suspended at a [yield] inside the [for] loop, or
    finished. *)
Module Generator.

Inductive t : Type :=
| Created (model_id : string) (messages : list dict) (body : dict)
| Suspended (rest : list Event.t) (failure : option Py.exn)
| Closed.

(** What [next(g)] does: hands over a value, raises [StopIteration], or
    raises the exception that ended the frame. *)
Inductive step : Type :=
| Yield (fragment : string)
| StopIteration
| Raised (e : Py.exn).

End Generator.

(** What [pipe] returns: [Union[str, Generator]]. *)
Inductive result : Type :=
| Text (s : string)
| Gen (g : Generator.t).

Section Pipeline.

Context (vendor : Vendor).

(** [client.messages.create(...)] with [stream] not given: the call reaches
    the vendor, which answers with a message or an error. *)
Definition messages_create (client : Anthropic.t) (kw : Create.kwargs)
  : M Message.t :=
  fun w =>
    let r := MkRequest (Anthropic.api_key client) kw in
    (answer vendor (wire w) r, MkWorld (self w) (wire w ++ [r])).

(** [client.messages.create(..., stream=True)] *)
Definition messages_create_stream (client : Anthropic.t) (kw : Create.kwargs)
  : M Stream.t :=
  fun w =>
    let r := MkRequest (Anthropic.api_key client) kw in
    (open_stream vendor (wire w) r, MkWorld (self w) (wire w ++ [r])).

Definition get_anthropic_models : M (list dict) :=
  ret [ {[ "id" := Py.Str "claude-3-haiku-20240307";
           "name" := Py.Str "claude-3-haiku" ]};
        {[ "id" := Py.Str "claude-3-opus-20240229";
           "name" := Py.Str "claude-3-opus" ]};
        {[ "id" := Py.Str "claude-3-sonnet-20240229";
           "name" := Py.Str "claude-3-sonnet" ]} ].

(** The body of the coroutine, run when the host awaits it. *)
Definition on_valves_update : M unit :=
  let* s := get_self in
  set_client (Anthropic.Make (Valves.ANTHROPIC_API_KEY (Self.valves s))).

Definition pipelines : M (list dict) := get_anthropic_models.

Definition get_completion (model_id : string) (messages : list dict)
    (body : dict) : M string :=
  let* s := get_self in
  let* response :=
    messages_create (Self.client s)
      (Create.Kwargs model_id messages
         (Py.get body "max_tokens" (Py.Int 1024))
         (Py.get body "temperature" (Py.Float 1.0%float))
         (Py.get body "top_k" (Py.Int 40))
         (Py.get body "top_p" (Py.Float 0.9%float))
         (Py.get body "stop" (Py.List []))
         None) in
  let* first := lift (getitem (Message.content response) 0) in
  ret (TextBlock.text first).

(** Calling the generator function runs none of its body. *)
Definition stream_response (model_id : string) (messages : list dict)
    (body : dict) : Generator.t :=
  Generator.Created model_id messages body.

(** The body of [stream_response] up to the loop. *)
Definition stream_response_open (model_id : string) (messages : list dict)
    (body : dict) : M Stream.t :=
  let* s := get_self in
  messages_create_stream (Self.client s)
    (Create.Kwargs model_id messages
       (Py.get body "max_tokens" (Py.Int 1024))
       (Py.get body "temperature" (Py.Float 1.0%float))
       (Py.get body "top_k" (Py.Int 40))
       (Py.get body "top_p" (Py.Float 0.9%float))
       (Py.get body "stop" (Py.List []))
       (Some true)).

(** [for chunk in stream: ...], run from the events still to come until the
    next [yield] or the end of the frame. *)
Fixpoint stream_response_loop (chunks : list Event.t)
    (failure : option Py.exn) : Generator.step * Generator.t :=
  match chunks with
  | [] =>
      match failure with
      | None => (Generator.StopIteration, Generator.Closed)
      | Some e => (Generator.Raised e, Generator.Closed)
      end
  | chunk :: rest =>
      if String.eqb (Event.type chunk) "content_block_start" then
        match Event.content_block chunk with
        | Return b => (Generator.Yield (TextBlock.text b),
                       Generator.Suspended rest failure)
        | Raise e => (Generator.Raised e, Generator.Closed)
        end
      else if String.eqb (Event.type chunk) "content_block_delta" then
        match Event.delta chunk with
        | Return d => (Generator.Yield (TextDelta.text d),
                       Generator.Suspended rest failure)
        | Raise e => (Generator.Raised e, Generator.Closed)
        end
      else stream_response_loop rest failure
  end.

(** [next(g)] *)
Definition next (g : Generator.t) (w : World)
  : Generator.step * Generator.t * World :=
  match g with
  | Generator.Created model_id messages body =>
      match stream_response_open model_id messages body w with
      | (Return stream, w') =>
          (stream_response_loop (Stream.events stream) (Stream.failure stream),
           w')
      | (Raise e, w') => (Generator.Raised e, Generator.Closed, w')
      end
  | Generator.Suspended rest failure => (stream_response_loop rest failure, w)
  | Generator.Closed => (Generator.StopIteration, Generator.Closed, w)
  end.

Definition pipe (user_message model_id : string) (messages : list dict)
    (body : dict) : M result :=
  try_except
    (if Py.truthy (Py.get body "stream" (Py.Bool false))
     then ret (Gen (stream_response model_id messages body))
     else let* s := get_completion model_id messages body in ret (Text s))
    ["RateLimitError"; "APIStatusError"; "APIConnectionError"]
    (fun e => ret (Text ("Error: " +:+ Py.str e))).

(** The caller pulling the generator dry, as [list(g)] or a [for] loop does:
    the fragments received and the exception that stopped the iteration, if
    one did. [fuel] bounds the number of [next] calls. *)
Fixpoint drain (fuel : nat) (g : Generator.t) (w : World)
  : option (list string * option Py.exn * World) :=
  match fuel with
  | O => None
  | S fuel' =>
      match next g w with
      | (Generator.Yield fragment, g', w') =>
          match drain fuel' g' w' with
          | Some (fragments, e, w'') => Some (fragment :: fragments, e, w'')
          | None => None
          end
      | (Generator.StopIteration, _, w') => Some ([], None, w')
      | (Generator.Raised e, _, w') => Some ([], Some e, w')
      end
  end.

End Pipeline.

(** ** What the specification says, in its own words *)

(** The fragments of a streaming reply: a "content block start" event gives
    its block's initial text, a "content block delta" event its incremental
    text, every other event nothing. *)
Definition fragment_of (ev : Event.t) : list string :=
  match ev with
  | Event.ContentBlockStart _ b => [TextBlock.text b]
  | Event.ContentBlockDelta _ d => [TextDelta.text d]
  | _ => []
  end.

Definition fragments (evs : list Event.t) : list string :=
  flat_map fragment_of evs.

(** Each recognised option that the bag supplies reaches the vendor parameter
    of the same name. *)
Definition supplied_is_forwarded (body : dict) (kw : Create.kwargs) : Prop :=
  (forall v, body !! "max_tokens" = Some v -> Create.max_tokens kw = v) /\
  (forall v, body !! "temperature" = Some v -> Create.temperature kw = v) /\
  (forall v, body !! "top_k" = Some v -> Create.top_k kw = v) /\
  (forall v, body !! "top_p" = Some v -> Create.top_p kw = v) /\
  (forall v, body !! "stop_sequences" = Some v -> Create.stop_sequences kw = v).

(** The same with the stop list read under the key the code uses. *)
Definition supplied_is_forwarded_stop (body : dict) (kw : Create.kwargs)
  : Prop :=
  (forall v, body !! "max_tokens" = Some v -> Create.max_tokens kw = v) /\
  (forall v, body !! "temperature" = Some v -> Create.temperature kw = v) /\
  (forall v, body !! "top_k" = Some v -> Create.top_k kw = v) /\
  (forall v, body !! "top_p" = Some v -> Create.top_p kw = v) /\
  (forall v, body !! "stop" = Some v -> Create.stop_sequences kw = v).

(** The bag omits every optional field, under the names the specification
    gives them. *)
Definition omits_optional_fields (body : dict) : Prop :=
  body !! "max_tokens" = None /\
  body !! "temperature" = None /\
  body !! "top_k" = None /\
  body !! "top_p" = None /\
  body !! "stop_sequences" = None /\
  body !! "stream" = None.

(** ** Vocabulary of the statements *)

(** The request [get_completion] and [stream_response] build from their
    arguments, for the client in place and the given [stream] keyword. *)
Definition request_of (w : World) (model_id : string) (messages : list dict)
    (body : dict) (stream : option bool)
  : Request :=
  MkRequest (Anthropic.api_key (Self.client (self w)))
    (Create.Kwargs model_id messages
       (Py.get body "max_tokens" (Py.Int 1024))
       (Py.get body "temperature" (Py.Float 1.0%float))
       (Py.get body "top_k" (Py.Int 40))
       (Py.get body "top_p" (Py.Float 0.9%float))
       (Py.get body "stop" (Py.List []))
       stream).

(** The world once request [r] has gone out. *)
Definition sent (w : World) (r : Request) : World :=
  MkWorld (self w) (wire w ++ [r]).

(** A generator whose frame has begun to run. *)
Definition started (g : Generator.t) : Prop :=
  match g with
  | Generator.Created _ _ _ => False
  | _ => True
  end.

(** ** A canned vendor and a fresh pipeline, for concrete runs *)

Module Fake.

Definition vendor (reply : Py.outcome Message.t)
    (stream : Py.outcome Stream.t) : Vendor :=
  MkVendor (fun _ _ => reply) (fun _ _ => stream).

Definition pipeline (key : string) : Self.t :=
  Self.Make "manifold" "anthropic" "Anthropic/"
            (Valves.Make key) (Anthropic.Make key).

Definition world (key : string) : World := MkWorld (pipeline key) [].

Definition haiku : string := "claude-3-haiku-20240307".

Definition hello : list dict :=
  [ {[ "role" := Py.Str "user"; "content" := Py.Str "Hello" ]} ].

Definition two_parts : Message.t :=
  Message.Make [TextBlock.Make "first"; TextBlock.Make "second"].

Definition hel_lo : Stream.t :=
  Stream.Make
    [ Event.ContentBlockStart 0 (TextBlock.Make "");
      Event.ContentBlockDelta 0 (TextDelta.Make "Hel");
      Event.ContentBlockDelta 0 (TextDelta.Make "lo");
      Event.ContentBlockStop 0 ]
    None.

End Fake.

(** ** Construction, and sequences of calls on one pipeline *)



(** The world after the host has assigned [self.valves = v]. *)
Definition with_valves (v : Valves.t) (w : World) : World :=
  let s := self w in
  MkWorld (Self.Make (Self.type s) (Self.id s) (Self.name s) v (Self.client s))
          (wire w).

(** The keys of the body that [pipe] and the functions it calls read. *)
Definition keys_read : list string :=
  ["stream"; "max_tokens"; "temperature"; "top_k"; "top_p"; "stop"].

(** One call on the pipeline or on a generator it handed out. *)
Inductive call : Type :=
| CallPipelines
| CallValvesUpdate
| CallPipe (user_message model_id : string) (messages : list dict)
    (body : dict)
| CallNext (g : Generator.t).

Definition may_send (c : call) : bool :=
  match c with
  | CallPipe _ _ _ _ | CallNext _ => true
  | CallPipelines | CallValvesUpdate => false
  end.

(** The world after one call, and after a sequence of calls. *)
Definition after (vendor : Vendor) (c : call) (w : World) : World :=
  match c with
  | CallPipelines => (pipelines w).2
  | CallValvesUpdate => (on_valves_update w).2
  | CallPipe user_message model_id messages body =>
      (pipe vendor user_message model_id messages body w).2
  | CallNext g => (next vendor g w).2
  end.

Fixpoint run (vendor : Vendor) (calls : list call) (w : World) : World :=
  match calls with
  | [] => w
  | c :: rest => run vendor rest (after vendor c w)
  end.

(** ** Properties *)

Section Facts.

Context (vendor : Vendor).

Implicit Types (w : World) (body : dict) (messages : list dict).
Implicit Types (model_id user_message : string).

Lemma get_completion_run w model_id messages body :
  get_completion vendor model_id messages body w =
  let r := request_of w model_id messages body None in
  (match answer vendor (wire w) r with
   | Return response =>
       match Message.content response with
       | first :: _ => Return (TextBlock.text first)
       | [] => Raise Py.IndexError
       end
   | Raise e => Raise e
   end, sent w r).
Proof.
  unfold get_completion, bind, get_self, messages_create, lift, ret, getitem.
  cbn. destruct (answer vendor _ _) as [response|e]; [|reflexivity].
  destruct (Message.content response); reflexivity.
Qed.

Lemma stream_response_open_run w model_id messages body :
  stream_response_open vendor model_id messages body w =
  let r := request_of w model_id messages body (Some true) in
  (open_stream vendor (wire w) r, sent w r).
Proof. reflexivity. Qed.

Lemma pipe_stream user_message model_id messages body w :
  Py.truthy (Py.get body "stream" (Py.Bool false)) = true ->
  pipe vendor user_message model_id messages body w =
  (Return (Gen (stream_response model_id messages body)), w).
Proof. intros Hs. unfold pipe, try_except. rewrite Hs. reflexivity. Qed.

Lemma pipe_completion user_message model_id messages body w :
  Py.truthy (Py.get body "stream" (Py.Bool false)) = false ->
  pipe vendor user_message model_id messages body w =
  let r := request_of w model_id messages body None in
  (match answer vendor (wire w) r with
   | Return response =>
       match Message.content response with
       | first :: _ => Return (Text (TextBlock.text first))
       | [] => Raise Py.IndexError
       end
   | Raise e =>
       if existsb (Py.isinstance e)
            ["RateLimitError"; "APIStatusError"; "APIConnectionError"]
       then Return (Text ("Error: " +:+ Py.str e))
       else Raise e
   end, sent w r).
Proof.
  intros Hs. unfold pipe, try_except. rewrite Hs.
  unfold bind. rewrite get_completion_run. cbn zeta.
  destruct (answer vendor _ _) as [response|e].
  - destruct (Message.content response); reflexivity.
  - unfold ret. destruct (existsb _ _); reflexivity.
Qed.

(** The loop yields for the two content events and skips the rest. *)
Lemma stream_response_loop_cons chunk rest failure :
  stream_response_loop (chunk :: rest) failure =
  match fragment_of chunk with
  | fragment :: _ =>
      (Generator.Yield fragment, Generator.Suspended rest failure)
  | [] => stream_response_loop rest failure
  end.
Proof. destruct chunk; reflexivity. Qed.

Lemma drain_suspended rest failure w fuel :
  length rest < fuel ->
  drain vendor fuel (Generator.Suspended rest failure) w =
  Some (fragments rest, failure, w).
Proof.
  revert fuel. induction rest as [|chunk rest IH]; intros fuel Hfuel.
  - destruct fuel as [|fuel]; [cbn in Hfuel; lia|].
    cbn. destruct failure; reflexivity.
  - destruct fuel as [|fuel]; [cbn in Hfuel; lia|].
    cbn in Hfuel.
    assert (Hrest : drain vendor (S fuel) (Generator.Suspended rest failure) w
                    = Some (fragments rest, failure, w))
      by (apply IH; lia).
    cbn [drain next]. rewrite stream_response_loop_cons.
    destruct chunk; cbn [fragment_of fragments flat_map app];
      try exact Hrest.
    + rewrite IH by lia. reflexivity.
    + rewrite IH by lia. reflexivity.
Qed.

Lemma drain_created w model_id messages body stream fuel :
  open_stream vendor (wire w) (request_of w model_id messages body (Some true))
  = Return stream ->
  drain vendor fuel (stream_response model_id messages body) w =
  drain vendor fuel
    (Generator.Suspended (Stream.events stream) (Stream.failure stream))
    (sent w (request_of w model_id messages body (Some true))).
Proof.
  intros Hopen. destruct fuel as [|fuel]; [reflexivity|].
  cbn [drain next stream_response].
  rewrite stream_response_open_run. cbn zeta. rewrite Hopen. reflexivity.
Qed.

Lemma next_created_wire w model_id messages body :
  (next vendor (stream_response model_id messages body) w).2 =
  sent w (request_of w model_id messages body (Some true)).
Proof.
  cbn [next stream_response]. rewrite stream_response_open_run. cbn zeta.
  destruct (open_stream vendor _ _) as [stream|e]; reflexivity.
Qed.

Lemma next_created_raises w model_id messages body e :
  open_stream vendor (wire w) (request_of w model_id messages body (Some true))
  = Raise e ->
  (next vendor (stream_response model_id messages body) w).1 =
  (Generator.Raised e, Generator.Closed).
Proof.
  intros Hopen. cbn [next stream_response].
  rewrite stream_response_open_run. cbn zeta. rewrite Hopen. reflexivity.
Qed.

Lemma get_insert_ne body k k' v dflt :
  k <> k' -> Py.get (<[k := v]> body) k' dflt = Py.get body k' dflt.
Proof. intros Hne. unfold Py.get. rewrite lookup_insert_ne; done. Qed.

Lemma get_supplied body k v dflt :
  body !! k = Some v -> Py.get body k dflt = v.
Proof. intros Hk. unfold Py.get. rewrite Hk. reflexivity. Qed.

Lemma get_omitted body k dflt :
  body !! k = None -> Py.get body k dflt = dflt.
Proof. intros Hk. unfold Py.get. rewrite Hk. reflexivity. Qed.

Lemma prefix_append (s t : string) : String.prefix s (s +:+ t) = true.
Proof.
  induction s as [|a s IH]; [destruct t; reflexivity|].
  change (match Ascii.ascii_dec a a with
          | left _ => String.prefix s (s +:+ t)
          | right _ => false
          end = true).
  destruct (Ascii.ascii_dec a a) as [_|Hne]; [exact IH|congruence].
Qed.

(** C3. For a streaming request, pulling the generator that [pipe] returned
    until it stops gives exactly [fragments] of the events the vendor stream
    delivers, in order: the initial text of each content-block start, the
    incremental text of each content-block delta, and nothing for any other
    event. The iteration ends as the stream does: normally when it closes,
    with the stream's own exception when it breaks off. *)
Theorem stream_fragments_in_order
    user_message model_id messages body w w1 stream fuel :
  Py.truthy (Py.get body "stream" (Py.Bool false)) = true ->
  open_stream vendor (wire w1)
    (request_of w1 model_id messages body (Some true))
  = Return stream ->
  length (Stream.events stream) < fuel ->
  exists g,
    pipe vendor user_message model_id messages body w = (Return (Gen g), w) /\
    drain vendor fuel g w1 =
    Some (fragments (Stream.events stream), Stream.failure stream,
          sent w1 (request_of w1 model_id messages body (Some true))).
Proof.
  intros Hs Hopen Hfuel. eexists. split; [apply pipe_stream, Hs|].
  rewrite (drain_created _ _ _ _ _ _ Hopen).
  apply drain_suspended, Hfuel.
Qed.

(** C4. For a non-streaming request that the vendor answers with a message
    whose content list is not empty, [pipe] returns the text of the first
    content element and nothing of the others. *)
Theorem pipe_returns_first_content
    user_message model_id messages body w first others :
  Py.truthy (Py.get body "stream" (Py.Bool false)) = false ->
  answer vendor (wire w) (request_of w model_id messages body None)
  = Return (Message.Make (first :: others)) ->
  (pipe vendor user_message model_id messages body w).1
  = Return (Text (TextBlock.text first)).
Proof.
  intros Hs Hanswer. rewrite pipe_completion by exact Hs.
  cbn zeta. rewrite Hanswer. reflexivity.
Qed.

(** C5. For a non-streaming request on which the vendor call raises [e]:
    if [e] is a rate-limit, status or connection error, [pipe] returns the
    string "Error: " followed by [str(e)] and does not raise; if [e] is an
    instance of none of the three classes, [pipe] raises [e] itself. *)
Theorem pipe_completion_error user_message model_id messages body w e :
  Py.truthy (Py.get body "stream" (Py.Bool false)) = false ->
  answer vendor (wire w) (request_of w model_id messages body None)
  = Raise e ->
  ((Py.isinstance e "RateLimitError" = true \/
    Py.isinstance e "APIStatusError" = true \/
    Py.isinstance e "APIConnectionError" = true) ->
   exists s,
     (pipe vendor user_message model_id messages body w).1 = Return (Text s) /\
     s = "Error: " +:+ Py.str e /\
     String.prefix "Error: " s = true) /\
  ((Py.isinstance e "RateLimitError" = false /\
    Py.isinstance e "APIStatusError" = false /\
    Py.isinstance e "APIConnectionError" = false) ->
   (pipe vendor user_message model_id messages body w).1 = Raise e).
Proof.
  intros Hs Hanswer. rewrite pipe_completion by exact Hs.
  cbn zeta. rewrite Hanswer. cbn [existsb fst]. split.
  - intros Hcaught. exists ("Error: " +:+ Py.str e).
    replace (_ || _) with true; [auto using prefix_append|].
    destruct Hcaught as [-> | [-> | ->]]; cbn;
      repeat match goal with |- context [Py.isinstance ?x ?c] =>
        destruct (Py.isinstance x c) end; reflexivity.
  - intros (-> & -> & ->). reflexivity.
Qed.

Lemma pipe_completion_wire user_message model_id messages body w :
  Py.truthy (Py.get body "stream" (Py.Bool false)) = false ->
  (pipe vendor user_message model_id messages body w).2 =
  sent w (request_of w model_id messages body None) /\
  (forall g,
     (pipe vendor user_message model_id messages body w).1 <> Return (Gen g)).
Proof.
  intros Hs. rewrite pipe_completion by exact Hs. cbn zeta.
  split; [reflexivity|]. intros g. cbn [fst].
  destruct (answer vendor _ _) as [response|e].
  - destruct (Message.content response); discriminate.
  - destruct (existsb _ _); discriminate.
Qed.

Lemma stream_response_loop_started chunks failure :
  started (stream_response_loop chunks failure).2.
Proof.
  induction chunks as [|chunk rest IH]; [destruct failure; exact I|].
  rewrite stream_response_loop_cons.
  destruct (fragment_of chunk); [exact IH|exact I].
Qed.

Lemma next_started g w : started (next vendor g w).1.2.
Proof.
  destruct g as [model_id messages body|rest failure|]; cbn [next].
  - destruct (stream_response_open _ _ _ _ _) as [[stream|e] w'];
      [apply stream_response_loop_started|exact I].
  - apply stream_response_loop_started.
  - exact I.
Qed.

Lemma next_started_world g w : started g -> (next vendor g w).2 = w.
Proof. destruct g; [intros []|reflexivity|reflexivity]. Qed.

(** C6, as the code has it. When the body has none of the keys [pipe] reads,
    which are max_tokens, temperature, top_k, top_p, stop and stream, the
    call takes the single-shot path and the one request it sends carries
    max_tokens=1024, temperature=1.0, top_k=40, top_p=0.9, stop_sequences=[]
    and no [stream] keyword, next to the model id and the messages as
    given. *)
Theorem pipe_defaults user_message model_id messages body w :
  body !! "max_tokens" = None ->
  body !! "temperature" = None ->
  body !! "top_k" = None ->
  body !! "top_p" = None ->
  body !! "stop" = None ->
  body !! "stream" = None ->
  (pipe vendor user_message model_id messages body w).2 =
  MkWorld (self w)
    (wire w ++
     [MkRequest (Anthropic.api_key (Self.client (self w)))
        (Create.Kwargs model_id messages
           (Py.Int 1024) (Py.Float 1.0%float) (Py.Int 40)
           (Py.Float 0.9%float) (Py.List []) None)]) /\
  (forall g,
     (pipe vendor user_message model_id messages body w).1 <> Return (Gen g)).
Proof.
  intros Hmax Htemp Htopk Htopp Hstop Hstream.
  assert (Hs : Py.truthy (Py.get body "stream" (Py.Bool false)) = false)
    by (rewrite get_omitted by exact Hstream; reflexivity).
  destruct (pipe_completion_wire user_message model_id messages body w Hs)
    as [Hwire Hmode].
  split; [|exact Hmode]. rewrite Hwire. unfold sent, request_of.
  rewrite !get_omitted by assumption. reflexivity.
Qed.

(** C7. [pipelines] returns the same three model descriptors, in the same
    order, in every state of the adapter and of the wire, and leaves that
    state as it was; in particular after a [pipe] call, after a pull on a
    generator, and after a credential update. *)
Theorem pipelines_fixed w :
  pipelines w =
  (Return [ {[ "id" := Py.Str "claude-3-haiku-20240307";
               "name" := Py.Str "claude-3-haiku" ]};
            {[ "id" := Py.Str "claude-3-opus-20240229";
               "name" := Py.Str "claude-3-opus" ]};
            {[ "id" := Py.Str "claude-3-sonnet-20240229";
               "name" := Py.Str "claude-3-sonnet" ]} ], w) /\
  (forall user_message model_id messages body,
     (pipelines (pipe vendor user_message model_id messages body w).2).1
     = (pipelines w).1) /\
  (forall g, (pipelines (next vendor g w).2).1 = (pipelines w).1) /\
  (pipelines (on_valves_update w).2).1 = (pipelines w).1.
Proof. repeat split. Qed.

(** C8. [on_valves_update] sets [self.client] to a handle built from the
    credential now in [self.valves] and changes nothing else: the valves, the
    other fields and the wire stay as they were, [pipelines] answers as
    before, and the next call that reaches the vendor, from [pipe] itself or
    from the first pull on the generator it returns, carries that
    credential. *)
Theorem on_valves_update_frame w :
  let key := Valves.ANTHROPIC_API_KEY (Self.valves (self w)) in
  let w' := (on_valves_update w).2 in
  (on_valves_update w).1 = Return tt /\
  Self.client (self w') = Anthropic.Make key /\
  Self.valves (self w') = Self.valves (self w) /\
  Self.type (self w') = Self.type (self w) /\
  Self.id (self w') = Self.id (self w) /\
  Self.name (self w') = Self.name (self w) /\
  wire w' = wire w /\
  (pipelines w').1 = (pipelines w).1 /\
  (forall user_message model_id messages body,
     match (pipe vendor user_message model_id messages body w').1 with
     | Return (Gen g) =>
         (pipe vendor user_message model_id messages body w').2 = w' /\
         auth <$> wire (next vendor g w').2 = (auth <$> wire w) ++ [key]
     | _ =>
         auth <$> wire (pipe vendor user_message model_id messages body w').2
         = (auth <$> wire w) ++ [key]
     end) /\
  (forall g,
     (next vendor g w').2 = w' \/
     auth <$> wire (next vendor g w').2 = (auth <$> wire w) ++ [key]).
Proof.
  cbn zeta. repeat (split; [reflexivity|]).
  split; [intros user_message model_id messages body|].
  all: set (w' := (on_valves_update w).2).
  - destruct (Py.truthy (Py.get body "stream" (Py.Bool false))) eqn:Hs.
    + rewrite (pipe_stream _ _ _ _ _ Hs). cbn [fst snd].
      split; [reflexivity|].
      rewrite next_created_wire. cbn [sent wire]. rewrite fmap_app.
      reflexivity.
    + rewrite pipe_completion by exact Hs. cbn zeta. cbn [fst snd].
      assert (Hsent :
        auth <$> wire (sent w' (request_of w' model_id messages body None))
        = (auth <$> wire w) ++
          [Valves.ANTHROPIC_API_KEY (Self.valves (self w))])
        by (cbn [sent wire]; rewrite fmap_app; reflexivity).
      destruct (answer vendor _ _) as [response|e].
      * destruct (Message.content response); exact Hsent.
      * destruct (existsb _ _); exact Hsent.
  - intros [model_id messages body|rest failure|];
      [right|left; reflexivity..].
    rewrite next_created_wire. cbn [sent wire]. rewrite fmap_app. reflexivity.
Qed.

(** C9. For a streaming request [pipe] returns a generator and leaves the
    world untouched, so no call has reached the vendor; the first pull on
    that generator, in whatever world it happens, sends exactly one request,
    the streaming one; later pulls send none. *)
Theorem pipe_stream_defers_call user_message model_id messages body w :
  Py.truthy (Py.get body "stream" (Py.Bool false)) = true ->
  exists g,
    pipe vendor user_message model_id messages body w = (Return (Gen g), w) /\
    (forall w1,
       wire (next vendor g w1).2 =
       wire w1 ++ [request_of w1 model_id messages body (Some true)]) /\
    (forall w1 w2,
       (next vendor (next vendor g w1).1.2 w2).2 = w2).
Proof.
  intros Hs. eexists. split; [apply pipe_stream, Hs|]. split.
  - intros w1. rewrite next_created_wire. reflexivity.
  - intros w1 w2. apply next_started_world, next_started.
Qed.

(** C10. Two calls of [pipe] that differ only in [user_message] run the same
    code on the same data: same outcome, same generator, same world after. *)
Theorem pipe_ignores_user_message
    user_message user_message' model_id messages body w :
  pipe vendor user_message model_id messages body w =
  pipe vendor user_message' model_id messages body w.
Proof. reflexivity. Qed.

(** C2, as the code has it. In both branches the request that reaches the
    vendor carries the model id and the messages as given and, for each of
    max_tokens, temperature, top_k and top_p that the body supplies, that
    value under the same name; the stop list is read from the body key
    "stop" and sent as stop_sequences, and a body key "stop_sequences" is not
    read at all. The single-shot request is sent by [pipe], the streaming one
    by the first pull on the generator. *)
Theorem options_forwarded_stop_key user_message model_id messages body w :
  (forall stream,
     let kw := args (request_of w model_id messages body stream) in
     Create.model kw = model_id /\
     Create.messages kw = messages /\
     Create.stream kw = stream /\
     supplied_is_forwarded_stop body kw) /\
  (forall v w1 stream,
     request_of w1 model_id messages (<["stop_sequences" := v]> body) stream
     = request_of w1 model_id messages body stream) /\
  (Py.truthy (Py.get body "stream" (Py.Bool false)) = false ->
   (pipe vendor user_message model_id messages body w).2 =
   sent w (request_of w model_id messages body None)) /\
  (Py.truthy (Py.get body "stream" (Py.Bool false)) = true ->
   exists g,
     pipe vendor user_message model_id messages body w = (Return (Gen g), w) /\
     forall w1,
       (next vendor g w1).2 =
       sent w1 (request_of w1 model_id messages body (Some true))).
Proof.
  split; [|split; [|split]].
  - intros stream. cbn. repeat split; intros v Hv;
      rewrite (get_supplied _ _ _ _ Hv); reflexivity.
  - intros v w1 stream. unfold request_of.
    rewrite !get_insert_ne by discriminate. reflexivity.
  - intros Hs. apply pipe_completion_wire, Hs.
  - intros Hs. eexists. split; [apply pipe_stream, Hs|].
    intros w1. apply next_created_wire.
Qed.

End Facts.

(** ** Concrete runs *)

(** C1. A streaming request against a vendor that refuses to open the stream
    with a rate-limit error: [pipe] returns a generator, not the string
    "Error: rate limited", and the first pull on the generator raises the
    rate-limit error to the caller. The [try] in [pipe] has been left by the
    time the call is made. *)
Theorem pipe_stream_open_error_escapes :
  let e := anthropic.RateLimitError "rate limited" in
  let v := Fake.vendor (Return Fake.two_parts) (Raise e) in
  let body : dict := {[ "stream" := Py.Bool true ]} in
  let w := Fake.world "sk-test" in
  Py.isinstance e "RateLimitError" = true /\
  pipe v "Hello" Fake.haiku Fake.hello body w
  = (Return (Gen (stream_response Fake.haiku Fake.hello body)), w) /\
  (pipe v "Hello" Fake.haiku Fake.hello body w).1
  <> Return (Text "Error: rate limited") /\
  (next v (stream_response Fake.haiku Fake.hello body) w).1
  = (Generator.Raised e, Generator.Closed).
Proof.
  cbn zeta. split; [reflexivity|]. split; [|split].
  - apply pipe_stream. reflexivity.
  - rewrite pipe_stream by reflexivity. discriminate.
  - apply next_created_raises. reflexivity.
Qed.

(** C2, as stated, fails: a body that supplies "stop_sequences" has it
    dropped, and the request goes out with the default empty list. *)
Lemma stop_sequences_key_dropped :
  let v := Fake.vendor (Return Fake.two_parts) (Return Fake.hel_lo) in
  let body : dict := {[ "stop_sequences" := Py.List [Py.Str "END"] ]} in
  let w := Fake.world "sk-test" in
  let kw :=
    Create.Kwargs Fake.haiku Fake.hello (Py.Int 1024) (Py.Float 1.0%float)
      (Py.Int 40) (Py.Float 0.9%float) (Py.List []) None in
  wire (pipe v "Hello" Fake.haiku Fake.hello body w).2
  = [MkRequest "sk-test" kw] /\
  ~ supplied_is_forwarded body kw.
Proof.
  intros v body w kw. split.
  - rewrite (proj1 (pipe_completion_wire v "Hello" Fake.haiku Fake.hello
                      body w eq_refl)).
    reflexivity.
  - intros (_ & _ & _ & _ & Hstop).
    specialize (Hstop _ eq_refl). discriminate Hstop.
Qed.

Lemma options_forwarded_stop_key_witness :
  let v := Fake.vendor (Return Fake.two_parts) (Return Fake.hel_lo) in
  let body : dict :=
    {[ "stop" := Py.List [Py.Str "END"]; "max_tokens" := Py.Int 64 ]} in
  let w := Fake.world "sk-test" in
  wire (pipe v "Hello" Fake.haiku Fake.hello body w).2
  = [MkRequest "sk-test"
       (Create.Kwargs Fake.haiku Fake.hello (Py.Int 64) (Py.Float 1.0%float)
          (Py.Int 40) (Py.Float 0.9%float)
          (Py.List [Py.Str "END"]) None)].
Proof.
  intros v body w.
  destruct (options_forwarded_stop_key v "Hello" Fake.haiku Fake.hello body w)
    as (_ & _ & Hsingle & _).
  rewrite Hsingle by (vm_compute; reflexivity).
  vm_compute. reflexivity.
Defined.

Lemma stream_fragments_in_order_witness :
  let v := Fake.vendor (Return Fake.two_parts) (Return Fake.hel_lo) in
  let body : dict := {[ "stream" := Py.Bool true ]} in
  let w := Fake.world "sk-test" in
  exists g,
    pipe v "Hello" Fake.haiku Fake.hello body w = (Return (Gen g), w) /\
    drain v 5 g w =
    Some ([""; "Hel"; "lo"], None,
          sent w (request_of w Fake.haiku Fake.hello body (Some true))).
Proof.
  cbn zeta.
  apply (stream_fragments_in_order
           (Fake.vendor (Return Fake.two_parts) (Return Fake.hel_lo))
           "Hello" Fake.haiku Fake.hello {[ "stream" := Py.Bool true ]}
           (Fake.world "sk-test") (Fake.world "sk-test") Fake.hel_lo 5);
    [reflexivity | reflexivity | cbn; lia].
Defined.

Lemma pipe_returns_first_content_witness :
  let v := Fake.vendor (Return Fake.two_parts) (Return Fake.hel_lo) in
  (pipe v "Hello" Fake.haiku Fake.hello ∅ (Fake.world "sk-test")).1
  = Return (Text "first").
Proof.
  cbn zeta.
  apply (pipe_returns_first_content
           (Fake.vendor (Return Fake.two_parts) (Return Fake.hel_lo))
           "Hello" Fake.haiku Fake.hello ∅ (Fake.world "sk-test")
           (TextBlock.Make "first") [TextBlock.Make "second"]);
    reflexivity.
Defined.

Lemma pipe_completion_error_witness :
  let e := anthropic.RateLimitError "rate limited" in
  let v := Fake.vendor (Raise e) (Raise e) in
  exists s,
    (pipe v "Hello" Fake.haiku Fake.hello ∅ (Fake.world "sk-test")).1
    = Return (Text s) /\
    s = "Error: rate limited" /\
    String.prefix "Error: " s = true.
Proof.
  intros e v.
  assert (Hs : Py.truthy (Py.get (∅ : dict) "stream" (Py.Bool false)) = false)
    by reflexivity.
  apply (proj1 (pipe_completion_error v "Hello" Fake.haiku Fake.hello ∅
                  (Fake.world "sk-test") e Hs eq_refl)).
  left. reflexivity.
Defined.

(** C6, as stated, fails: a body without any of the optional fields the
    specification names, but with the key "stop", does not get the default
    stop list; the request carries the value found under "stop". *)
Lemma stop_key_replaces_default :
  let v := Fake.vendor (Return Fake.two_parts) (Return Fake.hel_lo) in
  let body : dict := {[ "stop" := Py.List [Py.Str "END"] ]} in
  let w := Fake.world "sk-test" in
  omits_optional_fields body /\
  wire (pipe v "Hello" Fake.haiku Fake.hello body w).2
  = [MkRequest "sk-test"
       (Create.Kwargs Fake.haiku Fake.hello (Py.Int 1024) (Py.Float 1.0%float)
          (Py.Int 40) (Py.Float 0.9%float) (Py.List [Py.Str "END"]) None)] /\
  Py.List [Py.Str "END"] <> Py.List [].
Proof.
  intros v body w. split; [repeat split; vm_compute; reflexivity|]. split.
  - rewrite (proj1 (pipe_completion_wire v "Hello" Fake.haiku Fake.hello
                      body w eq_refl)).
    reflexivity.
  - discriminate.
Qed.

Lemma pipe_defaults_witness :
  let v := Fake.vendor (Return Fake.two_parts) (Return Fake.hel_lo) in
  let body : dict := {[ "user" := Py.Str "someone" ]} in
  wire (pipe v "Hello" Fake.haiku Fake.hello body (Fake.world "sk-test")).2
  = [MkRequest "sk-test"
       (Create.Kwargs Fake.haiku Fake.hello (Py.Int 1024) (Py.Float 1.0%float)
          (Py.Int 40) (Py.Float 0.9%float) (Py.List []) None)].
Proof.
  intros v body.
  destruct (pipe_defaults v "Hello" Fake.haiku Fake.hello body
              (Fake.world "sk-test")) as [Hwire _];
    [vm_compute; reflexivity .. | rewrite Hwire; reflexivity].
Defined.

Lemma pipe_stream_defers_call_witness :
  let v := Fake.vendor (Return Fake.two_parts) (Return Fake.hel_lo) in
  let body : dict := {[ "stream" := Py.Bool true ]} in
  let w := Fake.world "sk-test" in
  exists g,
    pipe v "Hello" Fake.haiku Fake.hello body w = (Return (Gen g), w) /\
    (forall w1,
       wire (next v g w1).2 =
       wire w1 ++ [request_of w1 Fake.haiku Fake.hello body (Some true)]) /\
    (forall w1 w2, (next v (next v g w1).1.2 w2).2 = w2).
Proof.
  cbn zeta.
  apply (pipe_stream_defers_call
           (Fake.vendor (Return Fake.two_parts) (Return Fake.hel_lo))
           "Hello" Fake.haiku Fake.hello {[ "stream" := Py.Bool true ]}
           (Fake.world "sk-test")).
  reflexivity.
Defined.

(** ** Further properties of the code *)

Section MoreFacts.

Context (vendor : Vendor).

Implicit Types (w : World) (body : dict) (messages : list dict).
Implicit Types (model_id user_message : string) (g : Generator.t).

Lemma stream_response_loop_ends chunks failure :
  match (stream_response_loop chunks failure).1 with
  | Generator.Yield _ => True
  | _ => (stream_response_loop chunks failure).2 = Generator.Closed
  end.
Proof.
  induction chunks as [|chunk rest IH]; [destruct failure; reflexivity|].
  rewrite stream_response_loop_cons.
  destruct (fragment_of chunk); [exact IH|exact I].
Qed.

(** An empty content list in the vendor's answer is not an error that [pipe]
    handles: [response.content[0]] raises [IndexError], which is none of the
    three classes and reaches the caller. The request has been sent. *)
Theorem pipe_empty_content_raises user_message model_id messages body w :
  Py.truthy (Py.get body "stream" (Py.Bool false)) = false ->
  answer vendor (wire w) (request_of w model_id messages body None)
  = Return (Message.Make []) ->
  pipe vendor user_message model_id messages body w =
  (Raise Py.IndexError, sent w (request_of w model_id messages body None)).
Proof.
  intros Hs Hanswer. rewrite pipe_completion by exact Hs.
  cbn zeta. rewrite Hanswer. reflexivity.
Qed.

(** A pull that does not hand over a fragment leaves the generator closed,
    whether the frame ran off its end, the stream broke off or the stream
    could not be opened; a closed generator answers every later pull with
    [StopIteration], stays closed and sends nothing. The call is never made
    a second time. *)
Theorem generator_not_restartable g w :
  match (next vendor g w).1.1 with
  | Generator.Yield _ => started (next vendor g w).1.2
  | _ =>
      (next vendor g w).1.2 = Generator.Closed /\
      forall w',
        next vendor (next vendor g w).1.2 w' =
        (Generator.StopIteration, Generator.Closed, w')
  end.
Proof.
  assert (Hclosed : forall g', g' = Generator.Closed ->
            g' = Generator.Closed /\
            forall w', next vendor g' w' =
                       (Generator.StopIteration, Generator.Closed, w'))
    by (intros g' ->; split; reflexivity).
  pose proof (next_started vendor g w) as Hstarted.
  destruct g as [model_id messages body|rest failure|]; cbn [next] in *.
  - destruct (stream_response_open _ _ _ _ _) as [[stream|e] w1].
    + pose proof (stream_response_loop_ends
                    (Stream.events stream) (Stream.failure stream)) as Hends.
      cbn [fst snd] in *.
      destruct (stream_response_loop _ _).1; auto.
    + cbn. auto.
  - pose proof (stream_response_loop_ends rest failure) as Hends.
    cbn [fst snd] in *.
    destruct (stream_response_loop _ _).1; auto.
  - cbn. auto.
Qed.

(** [pipe] hands back a generator exactly when the body's "stream" value is
    truthy, whatever its type; the generator is then the unstarted frame of
    [stream_response] on the same arguments. *)
Theorem pipe_streams_iff_truthy user_message model_id messages body w g :
  (pipe vendor user_message model_id messages body w).1 = Return (Gen g) <->
  Py.truthy (Py.get body "stream" (Py.Bool false)) = true /\
  g = stream_response model_id messages body.
Proof.
  destruct (Py.truthy (Py.get body "stream" (Py.Bool false))) eqn:Hs.
  - rewrite (pipe_stream _ _ _ _ _ _ Hs). cbn [fst]. split.
    + intros [= <-]. split; reflexivity.
    + intros [_ ->]. reflexivity.
  - split; [|intros [[=] _]].
    intros Hgen.
    destruct (proj2 (pipe_completion_wire vendor user_message model_id
                       messages body w Hs) g Hgen).
Qed.

(** Whatever exception the vendor raises when the stream is opened, of the
    three classes or not, [pipe] has already returned the generator without
    touching the world; the first pull sends the request, raises that same
    exception and closes the generator. A [StopIteration] is left out: the
    interpreter does not let one leave a generator frame as it is. *)
Theorem stream_open_error_raised_by_first_pull
    user_message model_id messages body w w1 e :
  Py.truthy (Py.get body "stream" (Py.Bool false)) = true ->
  Py.isinstance e "StopIteration" = false ->
  open_stream vendor (wire w1)
    (request_of w1 model_id messages body (Some true))
  = Raise e ->
  exists g,
    pipe vendor user_message model_id messages body w = (Return (Gen g), w) /\
    next vendor g w1 =
    (Generator.Raised e, Generator.Closed,
     sent w1 (request_of w1 model_id messages body (Some true))).
Proof.
  intros Hs _ Hopen. eexists. split; [apply pipe_stream, Hs|].
  cbn [next stream_response]. rewrite stream_response_open_run.
  cbn zeta. rewrite Hopen. reflexivity.
Qed.

Lemma request_of_insert_unread k v w model_id messages body stream :
  k ∉ keys_read ->
  request_of w model_id messages (<[k := v]> body) stream
  = request_of w model_id messages body stream.
Proof.
  intros Hk. unfold request_of.
  rewrite !get_insert_ne; [reflexivity|..];
    intros ->; apply Hk; unfold keys_read; set_solver.
Qed.

(** A body key that is none of the six the code reads has no effect: the
    branch taken, the outcome of a single-shot call, the request sent and
    every pull on the generator are the same with and without it. *)
Theorem unread_keys_ignored k v user_message model_id messages body w :
  k ∉ keys_read ->
  Py.truthy (Py.get (<[k := v]> body) "stream" (Py.Bool false))
  = Py.truthy (Py.get body "stream" (Py.Bool false)) /\
  (Py.truthy (Py.get body "stream" (Py.Bool false)) = false ->
   pipe vendor user_message model_id messages (<[k := v]> body) w
   = pipe vendor user_message model_id messages body w) /\
  (forall w1,
     next vendor (stream_response model_id messages (<[k := v]> body)) w1
     = next vendor (stream_response model_id messages body) w1).
Proof.
  intros Hk.
  assert (Hstream : Py.get (<[k := v]> body) "stream" (Py.Bool false)
                    = Py.get body "stream" (Py.Bool false)).
  { apply get_insert_ne. intros ->. apply Hk. unfold keys_read. set_solver. }
  split; [rewrite Hstream; reflexivity|]. split.
  - intros Hs. rewrite !pipe_completion by (rewrite ?Hstream; exact Hs).
    cbn zeta. rewrite request_of_insert_unread by exact Hk. reflexivity.
  - intros w1. cbn [next stream_response].
    rewrite !stream_response_open_run. cbn zeta.
    rewrite request_of_insert_unread by exact Hk. reflexivity.
Qed.

(** [pipe] and [next] never read [self.valves]: with any other valves in
    place they return the same value and send the same requests. A new
    credential stored in the valves reaches the vendor only after
    [on_valves_update]. *)
Theorem valves_not_read v user_message model_id messages body g w :
  (pipe vendor user_message model_id messages body (with_valves v w)).1
  = (pipe vendor user_message model_id messages body w).1 /\
  wire (pipe vendor user_message model_id messages body (with_valves v w)).2
  = wire (pipe vendor user_message model_id messages body w).2 /\
  (next vendor g (with_valves v w)).1 = (next vendor g w).1 /\
  wire (next vendor g (with_valves v w)).2 = wire (next vendor g w).2.
Proof.
  assert (Hreq : forall model_id messages body stream,
            request_of (with_valves v w) model_id messages body stream
            = request_of w model_id messages body stream) by reflexivity.
  assert (Hpipe :
    (pipe vendor user_message model_id messages body (with_valves v w)).1
    = (pipe vendor user_message model_id messages body w).1 /\
    wire (pipe vendor user_message model_id messages body (with_valves v w)).2
    = wire (pipe vendor user_message model_id messages body w).2).
  { destruct (Py.truthy (Py.get body "stream" (Py.Bool false))) eqn:Hs.
    - rewrite !(pipe_stream _ _ _ _ _ _ Hs). split; reflexivity.
    - rewrite !pipe_completion by exact Hs. cbn zeta. rewrite Hreq.
      split; reflexivity. }
  destruct Hpipe as [Hout Hwire]. repeat split; [exact Hout|exact Hwire|..];
    destruct g as [m ms b|rest failure|]; try reflexivity;
    cbn [next]; rewrite !stream_response_open_run; cbn zeta; rewrite Hreq;
    cbn [with_valves wire];
    destruct (open_stream vendor _ _); reflexivity.
Qed.

(** The error string is in-band: when the vendor raises an exception of one
    of the three classes, [pipe] returns and leaves behind exactly what it
    would have for a vendor that answered with a message whose first content
    element reads "Error: " followed by [str(e)]. *)
Theorem pipe_error_in_band vendor' user_message model_id messages body w e
    others :
  Py.truthy (Py.get body "stream" (Py.Bool false)) = false ->
  existsb (Py.isinstance e)
    ["RateLimitError"; "APIStatusError"; "APIConnectionError"] = true ->
  answer vendor (wire w) (request_of w model_id messages body None)
  = Raise e ->
  answer vendor' (wire w) (request_of w model_id messages body None)
  = Return (Message.Make (TextBlock.Make ("Error: " +:+ Py.str e) :: others)) ->
  pipe vendor user_message model_id messages body w
  = pipe vendor' user_message model_id messages body w.
Proof.
  intros Hs Hcaught Hraise Hreply. rewrite !pipe_completion by exact Hs.
  cbn zeta. rewrite Hraise, Hreply, Hcaught. reflexivity.
Qed.

Lemma after_cases c w :
  after vendor c w = w \/
  (c = CallValvesUpdate /\ after vendor c w = (on_valves_update w).2) \/
  (may_send c = true /\
   exists r, after vendor c w = sent w r /\
             auth r = Anthropic.api_key (Self.client (self w))).
Proof.
  destruct c as [| |user_message model_id messages body|g]; cbn [after].
  - left. reflexivity.
  - right. left. split; reflexivity.
  - destruct (Py.truthy (Py.get body "stream" (Py.Bool false))) eqn:Hs.
    + left. rewrite (pipe_stream _ _ _ _ _ _ Hs). reflexivity.
    + right. right. split; [reflexivity|]. eexists. split.
      * apply pipe_completion_wire, Hs.
      * reflexivity.
  - destruct g as [model_id messages body|rest failure|];
      [|left; reflexivity..].
    right. right. split; [reflexivity|]. eexists. split.
    + apply next_created_wire.
    + reflexivity.
Qed.

(** Over any sequence of calls the wire only grows at its end, and by at
    most one request for each [pipe] call or pull: [pipelines] and
    [on_valves_update] never reach the vendor, nothing already sent is
    changed, and no call is repeated after a failure. *)
Theorem wire_grows_by_calls calls w :
  wire w `prefix_of` wire (run vendor calls w) /\
  length (wire (run vendor calls w))
  <= length (wire w) + length (filter (fun c => may_send c = true) calls).
Proof.
  revert w. induction calls as [|c rest IH]; intros w; cbn [run].
  - split; [reflexivity|]. cbn. lia.
  - destruct (IH (after vendor c w)) as [Hprefix Hlen].
    destruct (after_cases c w) as [Hsame|[[-> Hupd]|[Hmay (r & Hsent & _)]]].
    + rewrite Hsame in *. split; [exact Hprefix|].
      rewrite filter_cons. destruct (decide _); cbn [length]; lia.
    + rewrite Hupd in *. cbn [on_valves_update] in *. split; [exact Hprefix|].
      exact Hlen.
    + rewrite Hsent in *. cbn [sent wire] in *. split.
      * etransitivity; [|exact Hprefix]. apply prefix_app_r. reflexivity.
      * rewrite filter_cons_True by exact Hmay.
        rewrite length_app in Hlen. cbn [length] in *. lia.
Qed.


End MoreFacts.

(** ** Concrete runs of the further properties *)

Lemma pipe_empty_content_raises_witness :
  let v := Fake.vendor (Return (Message.Make [])) (Return Fake.hel_lo) in
  let w := Fake.world "sk-test" in
  pipe v "Hello" Fake.haiku Fake.hello ∅ w =
  (Raise Py.IndexError, sent w (request_of w Fake.haiku Fake.hello ∅ None)).
Proof.
  intros v w.
  apply (pipe_empty_content_raises v "Hello" Fake.haiku Fake.hello ∅ w);
    reflexivity.
Defined.

Lemma stream_open_error_raised_by_first_pull_witness :
  let e := anthropic.APIConnectionError "Connection error." in
  let v := Fake.vendor (Return Fake.two_parts) (Raise e) in
  let body : dict := {[ "stream" := Py.Int 1 ]} in
  let w := Fake.world "sk-test" in
  exists g,
    pipe v "Hello" Fake.haiku Fake.hello body w = (Return (Gen g), w) /\
    next v g w =
    (Generator.Raised e, Generator.Closed,
     sent w (request_of w Fake.haiku Fake.hello body (Some true))).
Proof.
  intros e v body w.
  apply (stream_open_error_raised_by_first_pull v "Hello" Fake.haiku
           Fake.hello body w w e);
    reflexivity.
Defined.

Lemma unread_keys_ignored_witness :
  let v := Fake.vendor (Return Fake.two_parts) (Return Fake.hel_lo) in
  let body : dict := {[ "max_tokens" := Py.Int 64 ]} in
  let w := Fake.world "sk-test" in
  pipe v "Hello" Fake.haiku Fake.hello
       (<["stop_sequences" := Py.List [Py.Str "END"]]> body) w
  = pipe v "Hello" Fake.haiku Fake.hello body w.
Proof.
  intros v body w.
  destruct (unread_keys_ignored v "stop_sequences" (Py.List [Py.Str "END"])
              "Hello" Fake.haiku Fake.hello body w) as (_ & Hsingle & _).
  - apply (bool_decide_eq_false_1 ("stop_sequences" ∈ keys_read)).
    vm_compute. reflexivity.
  - apply Hsingle. vm_compute. reflexivity.
Defined.

Lemma pipe_error_in_band_witness :
  let e := anthropic.APIStatusError "overloaded" in
  let failing := Fake.vendor (Raise e) (Return Fake.hel_lo) in
  let talking :=
    Fake.vendor (Return (Message.Make [TextBlock.Make "Error: overloaded"]))
                (Return Fake.hel_lo) in
  let w := Fake.world "sk-test" in
  pipe failing "Hello" Fake.haiku Fake.hello ∅ w
  = pipe talking "Hello" Fake.haiku Fake.hello ∅ w.
Proof.
  intros e failing talking w.
  apply (pipe_error_in_band failing talking "Hello" Fake.haiku Fake.hello ∅ w
           e []);
    reflexivity.
Defined.

